(** * Verification of the course helpers of ai-llm-engineering-1

  - [HelloLLM]: the helper functions of day_1/Hello_LLM.ipynb
    ([get_response], [system_prompt], [assistant_prompt], [user_prompt],
    [pretty_print]), embedded over a small model of the notebook kernel.
  - [DiceRoller] and [ToolServer]: the dice utility and the HTTP tool server
    of day_8/mcp, which the repository documents in day_8/mcp/README.md. *)

From Stdlib Require Import Ascii.
From stdpp Require Import base strings gmap list sorting.

(** ** Python results and the notebook kernel *)

Module Py.

(** Exceptions the modelled code can raise. *)
Inductive exception : Type :=
| IndexError (msg : string)
| ValueError (msg : string)
| APIError (msg : string)
| TypeError (msg : string)
| AttributeError (msg : string)
| OSError (msg : string)
| ValidationError (msg : string).

Inductive result (A : Type) : Type :=
| Ok (a : A)
| Raise (e : exception).
Arguments Ok {A} a.
Arguments Raise {A} e.

(** The Python values the helpers return. *)
Inductive value : Type :=
| VNone
| VStr (s : string).

(** [l[i]] on a Python list, for a non-negative index. *)
Definition getitem {A} (l : list A) (i : nat) : result A :=
  match l !! i with
  | Some x => Ok x
  | None => Raise (IndexError "list index out of range")
  end.

End Py.

Module HelloLLM.
Import Py.

(** A message is a Python dict from str to str. *)
Abbreviation dict := (gmap string string).

(** The part of the response objects of the [openai] package that the
    notebook reads (as printed in the notebook's own output cells). *)
Module openai.
Record ChatCompletionMessage : Type :=
  { content : option string; role : string }.
Record Choice : Type :=
  { finish_reason : string; index : nat; message : ChatCompletionMessage }.
Record ChatCompletion : Type :=
  { id : string; choices : list Choice; model : string }.
End openai.

(** The arguments of one call of [client.chat.completions.create]: what the
    call hands to the client library for the endpoint. *)
Record ChatRequest : Type :=
  { req_model : string; req_messages : list dict }.

(** A Markdown display object, by the data it holds once it is built: text,
    or [None]. *)
Inductive display_data : Type :=
| Markdown (data : option string).

(** What the machine that runs the kernel answers to a display object under
    construction: the text behind a URL (or the exception that fetching and
    decoding it raises), whether a path exists, and the text of a file (or
    the exception that opening and reading it raises). *)
Record Host : Type :=
  { urlopen : string → result string;
    path_exists : string → bool;
    read_text : string → result string }.

(** [IPython.display.Markdown(data)], that is [DisplayObject.__init__]
    followed by [reload] and [_check_data]: a str that starts with "http"
    is taken for a URL and a str that names an existing path for a file
    name, and the data of the object is then what is loaded from there;
    any other str, and [None], is the data as it is. *)
Definition new_Markdown (host : Host) (data : option string) : result display_data :=
  match data with
  | None => Ok (Markdown None)
  | Some s =>
      if String.prefix "http" s then
        match urlopen host s with
        | Ok loaded => Ok (Markdown (Some loaded))
        | Raise e => Raise e
        end
      else if path_exists host s then
        match read_text host s with
        | Ok loaded => Ok (Markdown (Some loaded))
        | Raise e => Raise e
        end
      else Ok (Markdown (Some s))
  end.

(** The kernel state the helpers act on: the calls of the endpoint made so
    far, one entry per call of [create] (a client library that sends a
    request again on its own does so within the call), and the outputs shown
    so far, oldest first. *)
Record Kernel : Type :=
  { wire : list ChatRequest; outputs : list display_data }.

(** Stateful, fallible computations of the notebook. *)
Definition M (A : Type) : Type := Kernel → result A * Kernel.

#[global] Instance M_ret : MRet M := λ A a k, (Ok a, k).
#[global] Instance M_bind : MBind M := λ A B f m k,
  match m k with
  | (Ok a, k') => f a k'
  | (Raise e, k') => (Raise e, k')
  end.

(** Running a computation that neither sends nor shows anything. *)
Definition lift {A} (r : result A) : M A := λ k, (r, k).

(** The client object: how a call of the endpoint ends, with the completion
    the service answers or with the exception the client library raises,
    possibly depending on the calls made before. *)
Record OpenAI : Type :=
  { respond : ChatRequest → Kernel → result openai.ChatCompletion }.

(** [client.chat.completions.create(model=..., messages=...)]: the call is
    recorded with its arguments, and ends as the client makes it end. *)
Definition chat_completions_create
    (client : OpenAI) (model : string) (messages : list dict)
    : M openai.ChatCompletion := λ k,
  let req := {| req_model := model; req_messages := messages |} in
  (respond client req k, {| wire := wire k ++ [req]; outputs := outputs k |}).

(** [IPython.display.display(obj)]: shows [obj] and returns [None]. *)
Definition display (obj : display_data) : M value := λ k,
  (Ok VNone, {| wire := wire k; outputs := outputs k ++ [obj] |}).

(** def get_response(client, messages, model="gpt-4.1-nano"):
      return client.chat.completions.create(model=model, messages=messages)
    The keyword argument with a default is an [option]: [None] is the call
    that leaves [model] out. *)
Definition get_response
    (client : OpenAI) (messages : list dict) (model : option string)
    : M openai.ChatCompletion :=
  chat_completions_create client (default "gpt-4.1-nano" model) messages.

(** def system_prompt(message): return {"role": "developer", "content": message} *)
Definition system_prompt (message : string) : dict :=
  <["content" := message]> (<["role" := "developer"]> ∅).

(** def assistant_prompt(message): return {"role": "assistant", "content": message} *)
Definition assistant_prompt (message : string) : dict :=
  <["content" := message]> (<["role" := "assistant"]> ∅).

(** def user_prompt(message): return {"role": "user", "content": message} *)
Definition user_prompt (message : string) : dict :=
  <["content" := message]> (<["role" := "user"]> ∅).

(** def pretty_print(message):
      display(Markdown(message.choices[0].message.content))
    The body has no [return]: the call evaluates to [None]. *)
Definition pretty_print (host : Host) (message : openai.ChatCompletion) : M value :=
  choice ← lift (getitem (openai.choices message) 0);
  obj ← lift (new_Markdown host (openai.content (openai.message choice)));
  _ ← display obj;
  mret VNone.

(** Number of outputs a computation adds when run from kernel state [k]. *)
Definition display_calls {A} (m : M A) (k : Kernel) : nat :=
  length (outputs (snd (m k))) - length (outputs k).

(** Unfolds one run of a notebook computation. *)
Ltac run_M :=
  unfold pretty_print, get_response, chat_completions_create, display,
    display_calls, lift, getitem, mbind, M_bind, mret, M_ret; simpl.

(** A choice and a response as the notebook prints them, a response with no
    choice, and a kernel that has sent and shown nothing yet. *)
Definition sample_choice : openai.Choice :=
  {| openai.finish_reason := "stop"; openai.index := 0;
     openai.message :=
       {| openai.content := Some "Great question!"; openai.role := "assistant" |} |}.

Definition sample_response : openai.ChatCompletion :=
  {| openai.id := "chatcmpl-ByjIaUcSTUJcRnxROEMMcA6dR1lMH";
     openai.choices :=
       [ sample_choice ];
     openai.model := "gpt-4.1-nano-2025-04-14" |}.

Definition empty_response : openai.ChatCompletion :=
  {| openai.id := "chatcmpl-0"; openai.choices := []; openai.model := "gpt-4.1-nano" |}.

Definition fresh_kernel : Kernel := {| wire := []; outputs := [] |}.

(** A machine that is offline and has one file, README.md, in the working
    directory of the kernel. *)
Definition sample_host : Host :=
  {| urlopen := λ _, Raise (OSError "urlopen error");
     path_exists := λ p, bool_decide (p = "README.md");
     read_text := λ _, Ok "# Day 1" |}.

(** Responses whose first choice has the given content. *)
Definition response_with (content : option string) : openai.ChatCompletion :=
  {| openai.id := "chatcmpl-1";
     openai.choices :=
       [ {| openai.finish_reason := "stop"; openai.index := 0;
            openai.message :=
              {| openai.content := content; openai.role := "assistant" |} |} ];
     openai.model := "gpt-4.1-nano-2025-04-14" |}.

End HelloLLM.


(** ** The dice roller of day_8/mcp *)

Module DiceRoller.
Import Py.

(** Modelled from the spec: the utility tool/dice_roller.py, which the README
    of day_8/mcp lists and describes, is not among the sources. The parsed
    notation: number of dice, faces per die, optional keep-highest count. *)
Record notation : Type :=
  { num_dice : nat; sides : nat; keep : option nat }.

(** Modelled from the spec: the decimal digits of the notation. *)
Definition is_digit (c : ascii) : bool :=
  (48 <=? nat_of_ascii c) && (nat_of_ascii c <=? 57).

(** The value of a digit. *)
Definition digit_value (c : ascii) : nat := nat_of_ascii c - 48.

(** Modelled from the spec: the number a run of digits denotes (X, Y or Z),
    read in base ten. *)
Definition number (ds : list ascii) : nat :=
  foldl (λ n c, 10 * n + digit_value c) 0 ds.

(** Splits off the longest run of digits at the front. *)
Fixpoint span_digits (s : list ascii) : list ascii * list ascii :=
  match s with
  | c :: s' =>
      if is_digit c
      then let '(ds, rest) := span_digits s' in (c :: ds, rest)
      else ([], s)
  | [] => ([], [])
  end.

(** A number at the front: one digit at least. *)
Definition read_number (s : list ascii) : option (nat * list ascii) :=
  match span_digits s with
  | ([], _) => None
  | (ds, rest) => Some (number ds, rest)
  end.

(** The given character at the front. *)
Definition expect (c : ascii) (s : list ascii) : option (list ascii) :=
  match s with
  | c' :: rest => if decide (c' = c) then Some rest else None
  | [] => None
  end.

(** Modelled from the spec: the parser of the grammar XdY | XdYkZ, over the
    whole string. *)
Definition parse_chars (s : list ascii) : option notation :=
  '(x, s) ← read_number s;
  s ← expect "d"%char s;
  '(y, s) ← read_number s;
  match s with
  | [] => Some {| num_dice := x; sides := y; keep := None |}
  | _ =>
      s ← expect "k"%char s;
      '(z, s) ← read_number s;
      match s with
      | [] => Some {| num_dice := x; sides := y; keep := Some z |}
      | _ => None
      end
  end.

(** Modelled from the spec: the parser on a Python str. *)
Definition parse_notation (s : string) : option notation :=
  parse_chars (String.list_ascii_of_string s).

(** Modelled from the spec: random sampling. A random computation is the
    finite list of its outcomes, each as likely as the others (an outcome
    listed twice is twice as likely); [mret] and [mbind] are those of
    lists. A uniform draw in [lo, hi] lists each integer of the range once. *)
Definition randint (lo hi : nat) : list nat := seq lo (S hi - lo).

(** Modelled from the spec: the roll, [n] draws in [1, faces] one after the
    other, in the order drawn. *)
Fixpoint roll_n (n faces : nat) : list (list nat) :=
  match n with
  | 0 => mret []
  | S n' => d ← randint 1 faces; ds ← roll_n n' faces; mret (d :: ds)
  end.

(** The rolls, highest first. *)
Definition sort_desc (rolls : list nat) : list nat :=
  merge_sort (flip (≤)) rolls.

(** Modelled from the spec: the result of a roll, all dice summed or, with a
    keep count [z], the highest [z] of them (all of them when there are
    fewer than [z]). *)
Definition total (n : notation) (rolls : list nat) : nat :=
  match keep n with
  | None => sum_list rolls
  | Some z => sum_list (take z (sort_desc rolls))
  end.

(** Modelled from the spec: one run of the parser, as a step of the random
    computation. *)
Definition parse_step (s : string) : list (option notation) :=
  mret (parse_notation s).

(** Modelled from the spec: the dice roller: parse, and on a well-formed
    notation roll and sum; a malformed notation is the error
    "Invalid dice notation". *)
Definition roll_dice (s : string) : list (result nat) :=
  parsed ← parse_step s;
  match parsed with
  | None => mret (Raise (ValueError "Invalid dice notation"))
  | Some n =>
      rolls ← roll_n (num_dice n) (sides n);
      mret (Ok (total n rolls))
  end.

(** The grammar of the notation, as the README states it: X, Y and Z are
    runs of one or more decimal digits. *)
Definition digits (ds : list ascii) : Prop :=
  ds ≠ [] ∧ Forall (λ c, is_digit c = true) ds.

Definition XdY (x y : list ascii) : string :=
  String.string_of_list_ascii (x ++ "d"%char :: y).

Definition XdYkZ (x y z : list ascii) : string :=
  String.string_of_list_ascii (x ++ "d"%char :: y ++ "k"%char :: z).

Inductive dice_form : string → Prop :=
| form_XdY x y : digits x → digits y → dice_form (XdY x y)
| form_XdYkZ x y z : digits x → digits y → digits z → dice_form (XdYkZ x y z).

(** What may follow a number: the end, or a character that is no digit. *)
Definition stops (rest : list ascii) : Prop :=
  match rest with
  | [] => True
  | c :: _ => is_digit c = false
  end.

(** [kept] is a choice of the top [z] of [rolls]: [z] of them, none lower
    than a roll left out. *)
Definition top_of (z : nat) (rolls kept : list nat) : Prop :=
  length kept = z ∧
  ∃ dropped, kept ++ dropped ≡ₚ rolls ∧
    ∀ a b, a ∈ kept → b ∈ dropped → b ≤ a.

End DiceRoller.

(** ** The HTTP mode of the tool server of day_8/mcp *)

Module ToolServer.

Inductive http_method : Type := GET | POST | PUT | PATCH | DELETE | HEAD | OPTIONS.

(** Values of the JSON arguments object of a tool call. *)
Inductive json : Type :=
| JStr (s : string)
| JNum (n : nat).

Record http_request : Type :=
  { method : http_method; path : string; arguments : gmap string json }.

(** The tool-invocation interface behind the transport: list the tools, or
    call one by name with its arguments. *)
Inductive operation : Type :=
| ListTools
| CallTool (name : string) (args : gmap string json).

Inductive transport : Type :=
| Stdio
| Http (host : string) (port : N).

(** Modelled from the spec: the server script mcp_server.py, which the README
    of day_8/mcp describes, is not among the sources. Started with [--http]
    it serves on http://localhost:8000, otherwise over stdio. *)
Definition transport_of (argv : list string) : transport :=
  if decide ("--http" ∈ argv) then Http "localhost" 8000%N else Stdio.

(** [strip_prefix p s] is what follows [p] in [s], when [s] starts with [p]. *)
Fixpoint strip_prefix (p s : string) : option string :=
  match p, s with
  | EmptyString, _ => Some s
  | String a p', String b s' => if decide (a = b) then strip_prefix p' s' else None
  | String _ _, EmptyString => None
  end.

(** Modelled from the spec: the routes of HTTP mode, over the registered
    tools (name and description): GET /tools and POST /tools/{name}. A
    request that matches no route is not served ([None]). *)
Definition route (tools : gmap string string) (req : http_request)
    : option operation :=
  match method req with
  | GET => if decide (path req = "/tools") then Some ListTools else None
  | POST =>
      name ← strip_prefix "/tools/" (path req);
      if decide (name ∈ dom tools)
      then Some (CallTool name (arguments req))
      else None
  | _ => None
  end.

(** Modelled from the spec: the server started with [argv]: the routes are
    those of HTTP mode; over stdio there is no HTTP route. *)
Definition serve (argv : list string) (tools : gmap string string)
    (req : http_request) : option operation :=
  match transport_of argv with
  | Http _ _ => route tools req
  | Stdio => None
  end.

(** Modelled from the spec: the answer to GET /tools, the available tools. *)
Definition list_tools (tools : gmap string string) : list (string * string) :=
  map_to_list tools.

(** The two tools the README registers, as the client lists them. *)
Definition course_tools : gmap string string :=
  <["roll_dice" := "Roll the dice with the given notation"]>
    (<["poet" := "Poem generator"]> ∅).

End ToolServer.

(** ** The cells of Hello_LLM.ipynb that use the helpers *)

Module Notebook.
Import Py HelloLLM.

(** [l[i] = x] on a Python list, for a non-negative index: in place when
    the index is in range, IndexError otherwise. *)
Definition setitem {A} (l : list A) (i : nat) (x : A) : result (list A) :=
  if decide (i < length l)
  then Ok (<[i := x]> l)
  else Raise (IndexError "list assignment index out of range").

(** client.chat.completions.create(
        model="gpt-4.1-nano",
        messages=[{"role" : "user", "content" : YOUR_PROMPT}])
    The cell that calls the endpoint without the helpers. *)
Definition direct_cell (client : OpenAI) (YOUR_PROMPT : string)
    : M openai.ChatCompletion :=
  chat_completions_create client "gpt-4.1-nano"
    [ <["content" := YOUR_PROMPT]> (<["role" := "user"]> ∅) ].

(** resp = get_response(client, list_of_prompts)
    pretty_print(resp)
    The two statements every cell after the helpers ends with, on the list
    of prompts the cell has built. *)
Definition ask_cell (host : Host) (client : OpenAI) (list_of_prompts : list dict)
    : M value :=
  resp ← get_response client list_of_prompts None;
  pretty_print host resp.

(** messages = [user_prompt(YOUR_PROMPT)]
    chatgpt_response = get_response(client, messages)
    pretty_print(chatgpt_response) *)
Definition helper_cell (host : Host) (client : OpenAI) (YOUR_PROMPT : string)
    : M value :=
  let messages := [user_prompt YOUR_PROMPT] in
  ask_cell host client messages.

(** list_of_prompts[0] = system_prompt(...)
    joyful_response = get_response(client, list_of_prompts)
    pretty_print(joyful_response)
    The cell that replaces the first prompt of the list of an earlier cell;
    the new system message is a parameter here. *)
Definition swap_cell (host : Host) (client : OpenAI) (list_of_prompts : list dict)
    (message : string) : M value :=
  list_of_prompts ← lift (setitem list_of_prompts 0 (system_prompt message));
  ask_cell host client list_of_prompts.

(** Cells run one after the other, each on its own list of prompts; an
    exception stops the run. *)
Fixpoint run_cells (host : Host) (client : OpenAI) (cells : list (list dict))
    : M value :=
  match cells with
  | [] => mret VNone
  | list_of_prompts :: cells' =>
      _ ← ask_cell host client list_of_prompts;
      run_cells host client cells'
  end.

(** The request a cell sends for a list of prompts. *)
Definition request_of (list_of_prompts : list dict) : ChatRequest :=
  {| req_model := "gpt-4.1-nano"; req_messages := list_of_prompts |}.

(** The content of the first choice of a response, when there is one. *)
Definition first_content (resp : openai.ChatCompletion) : option (option string) :=
  (λ c, openai.content (openai.message c)) <$> head (openai.choices resp).

(** A response with two choices, and a service that always answers it. *)
Definition two_choices_response : openai.ChatCompletion :=
  {| openai.id := "chatcmpl-2";
     openai.choices :=
       [ sample_choice;
         {| openai.finish_reason := "length"; openai.index := 1;
            openai.message :=
              {| openai.content := Some "Another answer"; openai.role := "assistant" |} |} ];
     openai.model := "gpt-4.1-nano-2025-04-14" |}.

Definition sample_client : OpenAI :=
  {| respond := λ _ _, Ok sample_response |}.

End Notebook.

(** ** The sampling callback of day_8/mcp/README.md *)

Module Sampling.
Import Py HelloLLM.

(** The parts of the protocol objects that the callback reads and builds.
    The content of a message is text, an image or audio. *)
Record TextContent : Type := { type : string; text : string }.
Inductive Content : Type :=
| Text (c : TextContent)
| Image (data mimeType : string)
| Audio (data mimeType : string).
Record SamplingMessage : Type := { role : string; content : Content }.
Record CreateMessageRequestParams : Type := { messages : list SamplingMessage }.
Record CreateMessageResult : Type :=
  { result_role : string; result_content : TextContent; result_model : string }.

(** [content.text]: only text content has the attribute. *)
Definition content_text (c : Content) : result string :=
  match c with
  | Text c => Ok (text c)
  | Image _ _ => Raise (AttributeError "'ImageContent' object has no attribute 'text'")
  | Audio _ _ => Raise (AttributeError "'AudioContent' object has no attribute 'text'")
  end.

(** [TextContent(type='text', text=...)]: the text has to be a str. *)
Definition new_TextContent (text : option string) : result TextContent :=
  match text with
  | Some s => Ok {| type := "text"; text := s |}
  | None => Raise (ValidationError "text: Input should be a valid string")
  end.

(** async def sampling_callback(context, params):
        user_message = params.messages[0].content.text
        response = openai.ChatCompletion.create(
            model="gpt-4",
            messages=[{"role": "user", "content": user_message}])
        return CreateMessageResult(
            role='assistant',
            content=TextContent(type='text', text=response.choices[0].message.content),
            model='gpt-4')
    The body awaits nothing. [create] stands for [openai.ChatCompletion.create]
    of the library that is installed, whatever it does with the call (send
    it, or raise without sending); [context] is not read. *)
Definition sampling_callback {C}
    (create : string → list dict → M openai.ChatCompletion) (context : C)
    (params : CreateMessageRequestParams) : M CreateMessageResult :=
  first ← lift (getitem (messages params) 0);
  user_message ← lift (content_text (content first));
  response ← create "gpt-4"
                [ <["content" := user_message]> (<["role" := "user"]> ∅) ];
  choice ← lift (getitem (openai.choices response) 0);
  content ← lift (new_TextContent (openai.content (openai.message choice)));
  mret {| result_role := "assistant";
          result_content := content;
          result_model := "gpt-4" |}.

(** What [params.messages[0].content.text] evaluates to. *)
Definition first_text (params : CreateMessageRequestParams) : result string :=
  match getitem (messages params) 0 with
  | Ok first => content_text (content first)
  | Raise e => Raise e
  end.

(** Two sampling requests that start with the same text. *)
Definition short_params : CreateMessageRequestParams :=
  {| messages :=
       [ {| role := "user";
            content := Text {| type := "text"; text := "Write a poem" |} |} ] |}.

Definition long_params : CreateMessageRequestParams :=
  {| messages :=
       [ {| role := "assistant";
            content := Text {| type := "text"; text := "Write a poem" |} |};
         {| role := "user";
            content := Text {| type := "text"; text := "About dice" |} |} ] |}.

End Sampling.

(** * Properties *)

(** ** The helpers of Hello_LLM.ipynb *)

Section HelloLLM_facts.
Import Py HelloLLM.

Implicit Types (m : string) (k : Kernel) (client : OpenAI).

Lemma two_keys_dom (r m : string) :
  dom (<["content" := m]> (<["role" := r]> (∅ : gmap string string)))
  = ({["role"; "content"]} : gset string).
Proof. rewrite !dom_insert_L, dom_empty_L. set_solver. Qed.

Lemma two_keys_size (r m : string) :
  size (<["content" := m]> (<["role" := r]> (∅ : gmap string string))) = 2.
Proof.
  rewrite map_size_insert_None.
  - by rewrite map_size_insert_None, map_size_empty by apply lookup_empty.
  - rewrite lookup_insert_ne by done. apply lookup_empty.
Qed.

(** C2: each of the wrappers [system_prompt], [assistant_prompt] and
    [user_prompt] returns, for every string [m], a dict with exactly the
    two keys "role" and "content", whose "content" is [m] itself. *)
Theorem prompt_wrappers_role_and_content m :
  Forall (λ f : string → dict,
            dom (f m) = ({["role"; "content"]} : gset string) ∧
            size (f m) = 2 ∧
            f m !! "content" = Some m)
    [system_prompt; assistant_prompt; user_prompt].
Proof.
  repeat apply Forall_cons_2; [..|apply Forall_nil_2];
    (split; [apply two_keys_dom|split; [apply two_keys_size|apply lookup_insert_eq]]).
Qed.

(** C8: for every string [m], the dict [system_prompt m] has the role
    "developer", and so not "system". *)
Theorem system_prompt_role_developer m :
  system_prompt m !! "role" = Some "developer" ∧
  system_prompt m !! "role" ≠ Some "system".
Proof.
  assert (system_prompt m !! "role" = Some "developer") as ->; [|done].
  unfold system_prompt. rewrite lookup_insert_ne by done. apply lookup_insert_eq.
Qed.

(** C3: for every client, message list and model name, [get_response]
    makes one call of the endpoint, with that model name and with the
    message list as it was given, shows nothing, and returns the answer of
    that call as it is. *)
Theorem get_response_passes_verbatim client (messages : list dict) (model : string) k :
  let req := {| req_model := model; req_messages := messages |} in
  get_response client messages (Some model) k
  = (respond client req k, {| wire := wire k ++ [req]; outputs := outputs k |}).
Proof. reflexivity. Qed.

(** C10: called without a model, [get_response] sends the model name
    "gpt-4.1-nano", for every client and message list. *)
Theorem get_response_default_model client (messages : list dict) k :
  let k' := snd (get_response client messages None k) in
  wire k' = wire k ++ [{| req_model := "gpt-4.1-nano"; req_messages := messages |}] ∧
  req_model <$> last (wire k') = Some "gpt-4.1-nano".
Proof. run_M. split; [done|]. by rewrite last_snoc. Qed.

(** One run of [pretty_print], by the first choice and by what building the
    Markdown object gives. *)
Lemma pretty_print_run host (message : openai.ChatCompletion) k :
  pretty_print host message k =
    match openai.choices message with
    | [] => (Raise (IndexError "list index out of range"), k)
    | c :: _ =>
        match new_Markdown host (openai.content (openai.message c)) with
        | Ok obj => (Ok VNone, {| wire := wire k; outputs := outputs k ++ [obj] |})
        | Raise e => (Raise e, k)
        end
    end.
Proof.
  run_M. destruct (openai.choices message) as [|c cs]; [done|]. simpl.
  by destruct (new_Markdown host (openai.content (openai.message c))).
Qed.

(** C4, as amended: for every response with a first choice whose message
    content is a str that neither starts with "http" nor names an existing
    path, [pretty_print] shows exactly one output, the Markdown of that
    content, sends nothing and does nothing else. *)
Theorem pretty_print_displays_first_choice host
    (message : openai.ChatCompletion) (c : openai.Choice) (s : string) k :
  openai.choices message !! 0 = Some c →
  openai.content (openai.message c) = Some s →
  String.prefix "http" s = false →
  path_exists host s = false →
  pretty_print host message k
  = (Ok VNone,
     {| wire := wire k; outputs := outputs k ++ [Markdown (Some s)] |}) ∧
  display_calls (pretty_print host message) k = 1.
Proof.
  intros Hc Hs Hurl Hpath. unfold display_calls. rewrite pretty_print_run.
  destruct (openai.choices message) as [|c' cs]; [done|].
  injection Hc as ->. unfold new_Markdown. rewrite Hs, Hurl, Hpath. simpl.
  split; [done|]. rewrite length_app. simpl. lia.
Qed.

(** C9: whenever [pretty_print] returns, it returns [None] and no str. *)
Theorem pretty_print_returns_None host (message : openai.ChatCompletion) k v :
  fst (pretty_print host message k) = Ok v →
  v = VNone ∧ ∀ s, v ≠ VStr s.
Proof.
  rewrite pretty_print_run. intros Hv.
  assert (v = VNone) as ->; [|done].
  destruct (openai.choices message) as [|c cs]; [done|].
  destruct (new_Markdown host (openai.content (openai.message c)));
    simpl in Hv; congruence.
Qed.

End HelloLLM_facts.

Section HelloLLM_instances.
Import Py HelloLLM.

(** The response the notebook prints has a first choice: one output. *)
Lemma pretty_print_displays_first_choice_witness :
  pretty_print sample_host sample_response fresh_kernel
  = (Ok VNone, {| wire := []; outputs := [Markdown (Some "Great question!")] |}) ∧
  display_calls (pretty_print sample_host sample_response) fresh_kernel = 1.
Proof.
  apply (pretty_print_displays_first_choice sample_host sample_response
           sample_choice "Great question!" fresh_kernel);
    vm_compute; reflexivity.
Defined.

(** On the response the notebook prints the call returns, and returns [None]. *)
Lemma pretty_print_returns_None_witness :
  fst (pretty_print sample_host sample_response fresh_kernel) = Ok VNone ∧
  (VNone = VNone ∧ ∀ s, VNone ≠ VStr s).
Proof.
  split; [vm_compute; reflexivity|].
  apply (pretty_print_returns_None sample_host sample_response fresh_kernel VNone).
  vm_compute. reflexivity.
Defined.

(** C4, as stated, fails on a response with no choice: indexing raises
    IndexError before anything is shown, so there is no display call. *)
Lemma pretty_print_no_choice_no_display :
  pretty_print sample_host empty_response fresh_kernel
  = (Raise (IndexError "list index out of range"), fresh_kernel) ∧
  display_calls (pretty_print sample_host empty_response) fresh_kernel = 0 ∧
  display_calls (pretty_print sample_host empty_response) fresh_kernel ≠ 1.
Proof. repeat split. discriminate. Qed.

(** A content that starts with "http" is fetched, not shown: offline the
    call raises before anything is shown. A content that names an existing
    file is replaced by the text of the file. A content [None] is shown as
    a Markdown object without text. *)
Example pretty_print_other_contents :
  pretty_print sample_host (response_with (Some "http is a protocol")) fresh_kernel
  = (Raise (OSError "urlopen error"), fresh_kernel) ∧
  pretty_print sample_host (response_with (Some "README.md")) fresh_kernel
  = (Ok VNone, {| wire := []; outputs := [Markdown (Some "# Day 1")] |}) ∧
  pretty_print sample_host (response_with None) fresh_kernel
  = (Ok VNone, {| wire := []; outputs := [Markdown None] |}).
Proof. vm_compute. by repeat split. Qed.

End HelloLLM_instances.

(** ** The dice roller *)

Section DiceRoller_parser.
Import Py DiceRoller.

Implicit Types (s rest : list ascii) (c : ascii).

Lemma span_digits_app ds rest :
  Forall (λ c, is_digit c = true) ds → stops rest →
  span_digits (ds ++ rest) = (ds, rest).
Proof.
  induction 1 as [|c ds Hc _ IH]; intros Hrest; simpl.
  - destruct rest as [|c rest]; simpl in *; [done|by rewrite Hrest].
  - by rewrite Hc, IH.
Qed.

Lemma span_digits_inv s ds rest :
  span_digits s = (ds, rest) →
  s = ds ++ rest ∧ Forall (λ c, is_digit c = true) ds ∧ stops rest.
Proof.
  revert ds rest. induction s as [|c s IH]; intros ds rest; simpl.
  - intros [= <- <-]. by repeat split.
  - destruct (is_digit c) eqn:Hc.
    + destruct (span_digits s) as [ds' rest'].
      intros [= <- <-]. destruct (IH _ _ eq_refl) as (-> & ? & ?).
      repeat split; auto.
    + intros [= <- <-]. by repeat split.
Qed.

Lemma read_number_app ds rest :
  digits ds → stops rest → read_number (ds ++ rest) = Some (number ds, rest).
Proof.
  intros [Hne Hds] Hrest. unfold read_number.
  rewrite span_digits_app by done. by destruct ds.
Qed.

Lemma read_number_all ds :
  digits ds → read_number ds = Some (number ds, []).
Proof.
  intros Hds. rewrite <-(app_nil_r ds) at 1. by apply read_number_app.
Qed.

Lemma read_number_inv s n rest :
  read_number s = Some (n, rest) →
  ∃ ds, digits ds ∧ s = ds ++ rest ∧ n = number ds ∧ stops rest.
Proof.
  unfold read_number. destruct (span_digits s) as [ds rest'] eqn:Hs.
  apply span_digits_inv in Hs as (-> & Hds & Hrest).
  destruct ds as [|c ds]; [done|]. intros [= <- <-].
  exists (c :: ds). by repeat split.
Qed.

Lemma stops_d rest : stops ("d"%char :: rest).
Proof. reflexivity. Qed.

Lemma stops_k rest : stops ("k"%char :: rest).
Proof. reflexivity. Qed.

Lemma parse_chars_XdY x y :
  digits x → digits y →
  parse_chars (x ++ "d"%char :: y)
  = Some {| num_dice := number x; sides := number y; keep := None |}.
Proof.
  intros Hx Hy. unfold parse_chars.
  rewrite (read_number_app x) by (done || apply stops_d). simpl.
  by rewrite (read_number_all y).
Qed.

Lemma parse_chars_XdYkZ x y z :
  digits x → digits y → digits z →
  parse_chars (x ++ "d"%char :: y ++ "k"%char :: z)
  = Some {| num_dice := number x; sides := number y; keep := Some (number z) |}.
Proof.
  intros Hx Hy Hz. unfold parse_chars.
  rewrite (read_number_app x) by (done || apply stops_d). simpl.
  rewrite (read_number_app y) by (done || apply stops_k). simpl.
  by rewrite (read_number_all z).
Qed.

Lemma expect_inv c s rest : expect c s = Some rest → s = c :: rest.
Proof.
  destruct s as [|c' s]; simpl; [done|].
  case_decide; [|done]. by intros [= <-]; subst.
Qed.

Lemma parse_chars_inv s n :
  parse_chars s = Some n →
  (∃ x y, digits x ∧ digits y ∧ s = x ++ "d"%char :: y ∧
     n = {| num_dice := number x; sides := number y; keep := None |}) ∨
  (∃ x y z, digits x ∧ digits y ∧ digits z ∧
     s = x ++ "d"%char :: y ++ "k"%char :: z ∧
     n = {| num_dice := number x; sides := number y; keep := Some (number z) |}).
Proof.
  unfold parse_chars. intros Hp.
  destruct (read_number s) as [[nx s1]|] eqn:H1; simpl in Hp; [|done].
  apply read_number_inv in H1 as (x & Hx & -> & -> & _).
  destruct (expect "d"%char s1) as [s2|] eqn:H2; simpl in Hp; [|done].
  apply expect_inv in H2 as ->.
  destruct (read_number s2) as [[ny s3]|] eqn:H3; simpl in Hp; [|done].
  apply read_number_inv in H3 as (y & Hy & -> & -> & _).
  destruct s3 as [|c s3].
  { left. exists x, y. rewrite app_nil_r. by injection Hp as <-. }
  destruct (expect "k"%char (c :: s3)) as [s4|] eqn:H4; simpl in Hp; [|done].
  apply expect_inv in H4 as [= -> ->].
  destruct (read_number s4) as [[nz s5]|] eqn:H5; simpl in Hp; [|done].
  apply read_number_inv in H5 as (z & Hz & -> & -> & _).
  destruct s5; [|done]. right. exists x, y, z. rewrite app_nil_r.
  by injection Hp as <-.
Qed.

Lemma parse_notation_XdY x y :
  digits x → digits y →
  parse_notation (XdY x y)
  = Some {| num_dice := number x; sides := number y; keep := None |}.
Proof.
  intros. unfold parse_notation, XdY.
  rewrite String.list_ascii_of_string_of_list_ascii. by apply parse_chars_XdY.
Qed.

Lemma parse_notation_XdYkZ x y z :
  digits x → digits y → digits z →
  parse_notation (XdYkZ x y z)
  = Some {| num_dice := number x; sides := number y; keep := Some (number z) |}.
Proof.
  intros. unfold parse_notation, XdYkZ.
  rewrite String.list_ascii_of_string_of_list_ascii. by apply parse_chars_XdYkZ.
Qed.

(** The parser accepts exactly the strings of the grammar. *)
Lemma parse_notation_dice_form (s : string) :
  is_Some (parse_notation s) ↔ dice_form s.
Proof.
  split.
  - intros [n Hn]. unfold parse_notation in Hn.
    rewrite <-(String.string_of_list_ascii_of_string s).
    apply parse_chars_inv in Hn as [(x & y & ? & ? & -> & _)|(x & y & z & ? & ? & ? & -> & _)].
    + by apply form_XdY.
    + by apply form_XdYkZ.
  - intros [x y ??|x y z ???].
    + rewrite parse_notation_XdY by done. eauto.
    + rewrite parse_notation_XdYkZ by done. eauto.
Qed.

End DiceRoller_parser.

Section DiceRoller_sampling.
Import Py DiceRoller.

Implicit Types (ds rolls : list nat) (n faces z : nat).

Lemma bind_ret_fmap {A B} (g : A → B) (l : list A) :
  l ≫= (λ a, mret (g a)) = g <$> l.
Proof. induction l as [|a l IH]; [done|]. csimpl. by rewrite IH. Qed.

Lemma roll_n_S n faces :
  roll_n (S n) faces = randint 1 faces ≫= λ d, cons d <$> roll_n n faces.
Proof. simpl. f_equal. Qed.

Lemma elem_of_randint d faces : d ∈ randint 1 faces ↔ 1 ≤ d ≤ faces.
Proof. unfold randint. rewrite elem_of_seq. lia. Qed.

(** The outcomes of [n] draws are the vectors of [n] values of [1, faces]. *)
Lemma elem_of_roll_n n faces ds :
  ds ∈ roll_n n faces ↔ length ds = n ∧ Forall (λ d, 1 ≤ d ≤ faces) ds.
Proof.
  revert ds. induction n as [|n IH]; intros ds.
  - simpl. rewrite list_elem_of_ret. split.
    + by intros ->.
    + intros [Hlen _]. by destruct ds.
  - rewrite roll_n_S, list_elem_of_bind. split.
    + intros (d & Hds & Hd). apply list_elem_of_fmap in Hds as (ds' & -> & Hds').
      apply IH in Hds' as [<- ?]. apply elem_of_randint in Hd.
      split; [done|by constructor].
    + intros [Hlen Hall]. destruct ds as [|d ds]; [done|].
      apply Forall_cons in Hall as [Hd Hall]. exists d. split.
      * apply list_elem_of_fmap. exists ds. split; [done|].
        apply IH. split; [by injection Hlen|done].
      * by apply elem_of_randint.
Qed.

(** Each of them is listed once: the draws are uniform and independent. *)
Lemma NoDup_roll_n n faces : NoDup (roll_n n faces).
Proof.
  induction n as [|n IH].
  - apply NoDup_singleton.
  - rewrite roll_n_S. apply NoDup_bind.
    + intros d1 d2 ds _ _ (? & -> & _)%list_elem_of_fmap (? & [=] & _)%list_elem_of_fmap.
      done.
    + intros d _. by apply (NoDup_fmap_2 _).
    + apply NoDup_seq.
Qed.

Lemma length_bind_same {A B} (g : A → list B) (l : list A) c :
  (∀ a, length (g a) = c) → length (l ≫= g) = length l * c.
Proof.
  intros Hg. induction l as [|a l IH]; [done|].
  csimpl. rewrite length_app, Hg, IH. lia.
Qed.

Lemma length_roll_n n faces : length (roll_n n faces) = faces ^ n.
Proof.
  induction n as [|n IH]; [done|].
  rewrite roll_n_S, (length_bind_same _ _ (faces ^ n)).
  - unfold randint. rewrite length_seq. simpl. f_equal. lia.
  - intros d. by rewrite length_fmap.
Qed.

Lemma length_of_roll n faces ds : ds ∈ roll_n n faces → length ds = n.
Proof. intros Hds. by apply elem_of_roll_n in Hds as [? _]. Qed.

Lemma flip_le_total : Total (flip (≤)).
Proof. intros a b. unfold flip. lia. Qed.

Lemma flip_le_anti_symm : AntiSymm (=) (flip (≤)).
Proof. intros a b. unfold flip. lia. Qed.

Lemma sort_desc_Permutation rolls : sort_desc rolls ≡ₚ rolls.
Proof. apply merge_sort_Permutation. Qed.

Lemma sort_desc_sorted rolls : StronglySorted (flip (≤)) (sort_desc rolls).
Proof. pose proof flip_le_total. apply (StronglySorted_merge_sort _). Qed.

(** Sorting highest first and keeping [z] picks a top [z]. *)
Lemma take_sort_desc_top z rolls :
  z ≤ length rolls → top_of z rolls (take z (sort_desc rolls)).
Proof.
  intros Hz. split.
  - apply length_take_le. by rewrite sort_desc_Permutation.
  - exists (drop z (sort_desc rolls)). split.
    + by rewrite take_drop, sort_desc_Permutation.
    + intros a b Ha Hb. pose proof (sort_desc_sorted rolls) as Hs.
      rewrite <-(take_drop z) in Hs.
      apply (StronglySorted_app_1_elem_of _ _ _ a b Hs Ha Hb).
Qed.

(** Whichever top [z] is picked, it is the first [z] of the sorted rolls up
    to order, so the sum of the top [z] is one number. *)
Lemma top_of_sorted z rolls kept :
  top_of z rolls kept → sort_desc kept = take z (sort_desc rolls).
Proof.
  intros [Hlen (dropped & Hperm & Hdom)].
  assert (sort_desc kept ++ sort_desc dropped = sort_desc rolls) as <-.
  { pose proof flip_le_anti_symm.
    apply (StronglySorted_unique (flip (≤))).
    - apply StronglySorted_app. split_and!.
      + intros a b Ha Hb. unfold flip. apply Hdom.
        * by rewrite <-(sort_desc_Permutation kept).
        * by rewrite <-(sort_desc_Permutation dropped).
      + apply sort_desc_sorted.
      + apply sort_desc_sorted.
    - apply sort_desc_sorted.
    - by rewrite !sort_desc_Permutation. }
  symmetry. apply take_app_length'.
  by rewrite sort_desc_Permutation.
Qed.

Lemma top_of_sum z rolls kept :
  top_of z rolls kept → sum_list kept = sum_list (take z (sort_desc rolls)).
Proof.
  intros Htop. rewrite <-(top_of_sorted _ _ _ Htop).
  by rewrite sort_desc_Permutation.
Qed.

(** The roller after parsing: a function of the drawn rolls alone. *)
Lemma roll_dice_parsed (s : string) :
  roll_dice s =
    match parse_notation s with
    | None => [Raise (ValueError "Invalid dice notation")]
    | Some n => (λ rolls, Ok (total n rolls)) <$> roll_n (num_dice n) (sides n)
    end.
Proof.
  unfold roll_dice, parse_step.
  etrans; [apply (bind_singleton _ (parse_notation s))|].
  destruct (parse_notation s) as [n|]; [|done]. apply bind_ret_fmap.
Qed.

End DiceRoller_sampling.

Section DiceRoller_facts.
Import Py DiceRoller.

(** C1: for every notation XdY the roller's outcomes are, one for one, the
    vectors of X draws in [1, Y], each vector listed once (X independent
    uniform draws), and each outcome is the sum of its draws; for XdYkZ
    with Z ≤ X each outcome is the sum of the top Z of its draws: a top Z
    exists, and the outcome is the sum of any of them. *)
Theorem roll_dice_sums_uniform_draws (x y : list ascii) :
  digits x → digits y →
  let X := number x in
  let Y := number y in
  let draws := roll_n X Y in
  (∀ ds, ds ∈ draws ↔ length ds = X ∧ Forall (λ d, 1 ≤ d ≤ Y) ds) ∧
  NoDup draws ∧
  length draws = Y ^ X ∧
  Forall2 (λ ds r, r = Ok (sum_list ds)) draws (roll_dice (XdY x y)) ∧
  ∀ z, digits z → number z ≤ X →
    Forall2 (λ ds r,
               (∃ kept, top_of (number z) ds kept) ∧
               ∀ kept, top_of (number z) ds kept → r = Ok (sum_list kept))
      draws (roll_dice (XdYkZ x y z)).
Proof.
  intros Hx Hy X Y draws. split_and!.
  - intros ds. apply elem_of_roll_n.
  - apply NoDup_roll_n.
  - apply length_roll_n.
  - rewrite roll_dice_parsed, parse_notation_XdY by done. simpl.
    apply Forall2_fmap_r, Forall_Forall2_diag, Forall_forall. done.
  - intros z Hz Hle.
    rewrite roll_dice_parsed, parse_notation_XdYkZ by done. simpl.
    apply Forall2_fmap_r, Forall_Forall2_diag, Forall_forall.
    intros ds Hds. split.
    + exists (take (number z) (sort_desc ds)).
      apply take_sort_desc_top. by rewrite (length_of_roll _ _ _ Hds).
    + intros kept Htop. unfold total. simpl. f_equal.
      symmetry. by apply top_of_sum.
Qed.

(** C5: a string that is not of the form XdY or XdYkZ makes the roller fail
    with the error "Invalid dice notation", whatever the dice; on a string of
    one of the two forms no outcome is an error: each is a roll result. *)
Theorem roll_dice_invalid_notation (s : string) :
  (¬ dice_form s → roll_dice s = [Raise (ValueError "Invalid dice notation")]) ∧
  (dice_form s → Forall (λ r, ∃ t, r = Ok t) (roll_dice s)).
Proof.
  rewrite roll_dice_parsed, <-parse_notation_dice_form. split.
  - intros Hno. destruct (parse_notation s) as [n|]; [|done].
    destruct Hno. eauto.
  - intros [n ->]. apply Forall_fmap, Forall_forall. intros rolls _. simpl. eauto.
Qed.

End DiceRoller_facts.

Section DiceRoller_instances.
Import Py DiceRoller.

Lemma digits_4 : digits ["4"%char].
Proof. split; [done|]. by repeat constructor. Qed.

Lemma digits_6 : digits ["6"%char].
Proof. split; [done|]. by repeat constructor. Qed.

Lemma digits_3 : digits ["3"%char].
Proof. split; [done|]. by repeat constructor. Qed.

(** The README's 4d6 and 4d6k3: 1296 equally likely vectors of draws. *)
Lemma roll_dice_sums_uniform_draws_witness :
  let draws := roll_n 4 6 in
  (∀ ds, ds ∈ draws ↔ length ds = 4 ∧ Forall (λ d, 1 ≤ d ≤ 6) ds) ∧
  NoDup draws ∧
  length draws = 6 ^ 4 ∧
  Forall2 (λ ds r, r = Ok (sum_list ds)) draws (roll_dice "4d6") ∧
  Forall2 (λ ds r,
             (∃ kept, top_of 3 ds kept) ∧
             ∀ kept, top_of 3 ds kept → r = Ok (sum_list kept))
    draws (roll_dice "4d6k3").
Proof.
  destruct (roll_dice_sums_uniform_draws ["4"%char] ["6"%char] digits_4 digits_6)
    as (Hmem & Hnodup & Hlen & Hsum & Htop).
  split_and!; [exact Hmem|exact Hnodup|exact Hlen|exact Hsum|].
  apply (Htop ["3"%char] digits_3). vm_compute. lia.
Defined.

(** A malformed notation and a well-formed one. *)
Lemma roll_dice_invalid_notation_witness :
  roll_dice "two d six" = [Raise (ValueError "Invalid dice notation")] ∧
  Forall (λ r, ∃ t, r = Ok t) (roll_dice "4d6k3").
Proof.
  split.
  - apply (roll_dice_invalid_notation "two d six").
    rewrite <-parse_notation_dice_form. by intros [n [=]].
  - apply (roll_dice_invalid_notation "4d6k3").
    exact (form_XdYkZ ["4"%char] ["6"%char] ["3"%char] digits_4 digits_6 digits_3).
Defined.

(** The notations the README gives as examples. *)
Example parse_readme_notations :
  parse_notation "1d20" = Some {| num_dice := 1; sides := 20; keep := None |} ∧
  parse_notation "2d6" = Some {| num_dice := 2; sides := 6; keep := None |} ∧
  parse_notation "4d6k3" = Some {| num_dice := 4; sides := 6; keep := Some 3 |} ∧
  parse_notation "1d100" = Some {| num_dice := 1; sides := 100; keep := None |}.
Proof. by repeat split. Qed.

Example parse_rejects :
  Forall (λ s, parse_notation s = None) ["d6"; "4d"; "4d6k"; "4x6"; "4d6k3 "; ""; "4D6"].
Proof. repeat constructor. Qed.

Example roll_2d2k1 : roll_dice "2d2k1" = [Ok 1; Ok 2; Ok 2; Ok 2].
Proof. vm_compute. reflexivity. Qed.

Example roll_2d3 :
  roll_dice "2d3" = [Ok 2; Ok 3; Ok 4; Ok 3; Ok 4; Ok 5; Ok 4; Ok 5; Ok 6].
Proof. vm_compute. reflexivity. Qed.

Example roll_malformed :
  roll_dice "two d six" = [Raise (ValueError "Invalid dice notation")].
Proof. vm_compute. reflexivity. Qed.

Example parse_step_4d6k3 :
  parse_step "4d6k3" = [Some {| num_dice := 4; sides := 6; keep := Some 3 |}].
Proof. reflexivity. Qed.

End DiceRoller_instances.

(** ** The HTTP mode of the tool server *)

Section ToolServer_facts.
Import ToolServer.

Lemma strip_prefix_app (p s : string) : strip_prefix p (p +:+ s) = Some s.
Proof.
  induction p as [|a p IH]; simpl; [by destruct s|].
  by rewrite decide_True.
Qed.

Lemma strip_prefix_inv (p s r : string) :
  strip_prefix p s = Some r → s = p +:+ r.
Proof.
  revert s. induction p as [|a p IH]; intros s; simpl.
  - by intros [= ->].
  - destruct s as [|b s]; [done|]. case_decide; [|done].
    intros ->%IH. by subst.
Qed.

(** C6: started in HTTP mode the server listens on localhost, and serves
    GET /tools (the registered tools are what it lists) and, for every
    registered tool name, POST /tools/{name}, which calls that tool with the
    arguments sent; it serves no other request. *)
Theorem http_mode_routes (argv : list string) (tools : gmap string string) :
  "--http" ∈ argv →
  (∃ port, transport_of argv = Http "localhost" port) ∧
  (∀ args,
     serve argv tools {| method := GET; path := "/tools"; arguments := args |}
     = Some ListTools) ∧
  (∀ name description,
     (name, description) ∈ list_tools tools ↔ tools !! name = Some description) ∧
  (∀ name args, name ∈ dom tools →
     serve argv tools
       {| method := POST; path := "/tools/" +:+ name; arguments := args |}
     = Some (CallTool name args)) ∧
  (∀ req op, serve argv tools req = Some op →
     (method req = GET ∧ path req = "/tools" ∧ op = ListTools) ∨
     (∃ name, name ∈ dom tools ∧ method req = POST ∧
        path req = "/tools/" +:+ name ∧ op = CallTool name (arguments req))).
Proof.
  intros Hhttp. unfold serve, transport_of. rewrite decide_True by done.
  split_and!.
  - eauto.
  - done.
  - intros name description. apply elem_of_map_to_list.
  - intros name args Hname. unfold route. cbn [method path arguments].
    rewrite (strip_prefix_app "/tools/" name). simpl. by rewrite decide_True.
  - intros [m p args] op. unfold route. cbn [method path arguments].
    destruct m; try done.
    + case_decide as Hp; [|done]. intros [= <-]. by left.
    + destruct (strip_prefix "/tools/" p) as [name|] eqn:Hp; [|done].
      cbn [mbind option_bind]. case_decide as Hname; [|done].
      intros [= <-]. right. exists name.
      by apply strip_prefix_inv in Hp as ->.
Qed.

(** The server of the README, started as [mcp_server.py --http]. *)
Lemma http_mode_routes_witness :
  (∃ port, transport_of ["mcp_server.py"; "--http"] = Http "localhost" port) ∧
  (∀ args,
     serve ["mcp_server.py"; "--http"] course_tools
       {| method := GET; path := "/tools"; arguments := args |}
     = Some ListTools) ∧
  (∀ name description,
     (name, description) ∈ list_tools course_tools ↔
     course_tools !! name = Some description) ∧
  (∀ name args, name ∈ dom course_tools →
     serve ["mcp_server.py"; "--http"] course_tools
       {| method := POST; path := "/tools/" +:+ name; arguments := args |}
     = Some (CallTool name args)) ∧
  (∀ req op, serve ["mcp_server.py"; "--http"] course_tools req = Some op →
     (method req = GET ∧ path req = "/tools" ∧ op = ListTools) ∨
     (∃ name, name ∈ dom course_tools ∧ method req = POST ∧
        path req = "/tools/" +:+ name ∧ op = CallTool name (arguments req))).
Proof.
  apply (http_mode_routes ["mcp_server.py"; "--http"] course_tools).
  apply list_elem_of_further, list_elem_of_here.
Defined.

Example serve_roll_dice :
  serve ["mcp_server.py"; "--http"] course_tools
    {| method := POST; path := "/tools/roll_dice";
       arguments := <["num_rolls" := JNum 3]> (<["notation" := JStr "2d6"]> ∅) |}
  = Some (CallTool "roll_dice"
            (<["num_rolls" := JNum 3]> (<["notation" := JStr "2d6"]> ∅))).
Proof. vm_compute. reflexivity. Qed.

Example serve_nothing_else :
  Forall (λ req, serve ["mcp_server.py"; "--http"] course_tools req = None)
    [ {| method := POST; path := "/tools"; arguments := ∅ |};
      {| method := GET; path := "/tools/poet"; arguments := ∅ |};
      {| method := POST; path := "/tools/unknown"; arguments := ∅ |};
      {| method := GET; path := "/"; arguments := ∅ |} ] ∧
  serve ["mcp_server.py"] course_tools
    {| method := GET; path := "/tools"; arguments := ∅ |} = None.
Proof. vm_compute. split; [repeat constructor|reflexivity]. Qed.

End ToolServer_facts.

(** ** The cells of Hello_LLM.ipynb *)

Section Notebook_facts.
Import Py HelloLLM Notebook.

Implicit Types (host : Host) (client : OpenAI) (k : Kernel) (l : list dict).

(** One cell, by what the service answers and by what building the Markdown
    object gives. *)
Lemma ask_cell_run host client l k :
  ask_cell host client l k =
    match respond client (request_of l) k with
    | Raise e =>
        (Raise e, {| wire := wire k ++ [request_of l]; outputs := outputs k |})
    | Ok resp =>
        pretty_print host resp
          {| wire := wire k ++ [request_of l]; outputs := outputs k |}
    end.
Proof.
  unfold ask_cell, get_response, chat_completions_create, mbind, M_bind. simpl.
  fold (request_of l). by destruct (respond client (request_of l) k).
Qed.

(** The cell written with the helpers sends what the cell written without
    them sends, and gets the same answer; it then shows that answer. *)
Theorem helper_cell_is_direct_call host client (YOUR_PROMPT : string) k :
  get_response client [user_prompt YOUR_PROMPT] None k
  = direct_cell client YOUR_PROMPT k ∧
  helper_cell host client YOUR_PROMPT k
  = (resp ← direct_cell client YOUR_PROMPT; pretty_print host resp) k.
Proof. split; reflexivity. Qed.

(** When the call of the service raises, the cell raises the same exception.
    A cell that raises, for whatever reason, shows nothing. A cell that
    returns evaluates to [None] and has shown exactly one output, the
    Markdown object built from the content of the first choice of the
    answer. *)
Theorem ask_cell_error_propagation host client l k :
  let out := ask_cell host client l k in
  (∀ e, respond client (request_of l) k = Raise e → fst out = Raise e) ∧
  match fst out with
  | Raise _ => outputs (snd out) = outputs k
  | Ok v =>
      v = VNone ∧
      ∃ resp c obj,
        respond client (request_of l) k = Ok resp ∧
        openai.choices resp !! 0 = Some c ∧
        new_Markdown host (openai.content (openai.message c)) = Ok obj ∧
        outputs (snd out) = outputs k ++ [obj]
  end.
Proof.
  intros out. subst out. rewrite ask_cell_run.
  destruct (respond client (request_of l) k) as [resp|e0] eqn:Hr.
  - split; [done|]. rewrite pretty_print_run.
    destruct (openai.choices resp) as [|c cs] eqn:Hcs; [done|].
    destruct (new_Markdown host (openai.content (openai.message c)))
      as [obj|e1] eqn:Hobj; [|done].
    simpl. split; [done|]. exists resp, c, obj. by rewrite Hcs.
  - split; [|done]. by intros e [= <-].
Qed.

End Notebook_facts.

Section Notebook_runs.
Import Py HelloLLM Notebook.

Implicit Types (host : Host) (client : OpenAI) (k : Kernel) (l : list dict).

Lemma run_cells_cons host client l (cells : list (list dict)) k :
  run_cells host client (l :: cells) k =
    match ask_cell host client l k with
    | (Ok _, k') => run_cells host client cells k'
    | (Raise e, k') => (Raise e, k')
    end.
Proof. reflexivity. Qed.

(** What a cell leaves shown: the outputs before it, and one more exactly
    when it returns. *)
Lemma ask_cell_outputs host client l k :
  match fst (ask_cell host client l k) with
  | Ok v => v = VNone ∧ ∃ obj, outputs (snd (ask_cell host client l k)) = outputs k ++ [obj]
  | Raise _ => outputs (snd (ask_cell host client l k)) = outputs k
  end.
Proof.
  rewrite ask_cell_run.
  destruct (respond client (request_of l) k) as [resp|e]; [|done].
  rewrite pretty_print_run. destruct (openai.choices resp) as [|c cs]; [done|].
  destruct (new_Markdown host (openai.content (openai.message c))) as [obj|e];
    [|done].
  simpl. eauto.
Qed.

(** Cells run in a row only add to what was shown before. A run that
    completes has shown exactly one output per cell; a run that an
    exception stops has shown fewer outputs than there are cells. *)
Theorem run_cells_outputs host client (cells : list (list dict)) k :
  let out := run_cells host client cells k in
  ∃ outs,
    outputs (snd out) = outputs k ++ outs ∧
    match fst out with
    | Ok v => v = VNone ∧ length outs = length cells
    | Raise _ => length outs < length cells
    end.
Proof.
  simpl. revert k. induction cells as [|l cells IH]; intros k.
  - exists []. simpl. by rewrite app_nil_r.
  - rewrite run_cells_cons. pose proof (ask_cell_outputs host client l k) as Hcell.
    destruct (ask_cell host client l k) as [[v|e] k1]; simpl in Hcell.
    + destruct Hcell as [_ [obj Hobj]].
      destruct (IH k1) as (outs & Ho & Hres).
      exists (obj :: outs). rewrite Ho, Hobj, <-app_assoc. split; [done|].
      destruct (fst (run_cells host client cells k1)); simpl.
      * destruct Hres as [-> ->]. done.
      * lia.
    + exists []. simpl. rewrite app_nil_r. split; [done|lia].
Qed.

(** Replacing the first prompt: on an empty list the assignment raises
    IndexError and nothing is sent; otherwise the cell asks with a list of
    the same length, whose first prompt is the new system message and whose
    other prompts are those of the list, in place. *)
Theorem swap_cell_replaces_first host client l (message : string) k :
  match l with
  | [] =>
      swap_cell host client l message k
      = (Raise (IndexError "list assignment index out of range"), k)
  | _ :: _ =>
      ∃ sent,
        swap_cell host client l message k = ask_cell host client sent k ∧
        length sent = length l ∧
        sent !! 0 = Some (system_prompt message) ∧
        ∀ i, 0 < i → sent !! i = l !! i
  end.
Proof.
  destruct l as [|old rest]; [done|].
  exists (system_prompt message :: rest). split_and!; [done..|].
  intros i Hi. by destruct i; [lia|].
Qed.

(** A message dict tells which wrapper built it and from which string: each
    wrapper is injective, and no two wrappers build the same dict. *)
Theorem prompt_wrappers_unambiguous (m1 m2 : string) :
  (system_prompt m1 = system_prompt m2 → m1 = m2) ∧
  (assistant_prompt m1 = assistant_prompt m2 → m1 = m2) ∧
  (user_prompt m1 = user_prompt m2 → m1 = m2) ∧
  system_prompt m1 ≠ assistant_prompt m2 ∧
  system_prompt m1 ≠ user_prompt m2 ∧
  assistant_prompt m1 ≠ user_prompt m2.
Proof.
  assert (∀ r1 r2 a b : string,
            <["content" := a]> (<["role" := r1]> (∅ : gmap string string))
            = <["content" := b]> (<["role" := r2]> ∅) → r1 = r2 ∧ a = b) as Hinj.
  { intros r1 r2 a b Heq. split.
    - apply (f_equal (λ d : gmap string string, d !! "role")) in Heq.
      rewrite lookup_insert_ne, lookup_insert_eq in Heq by done.
      rewrite lookup_insert_ne, lookup_insert_eq in Heq by done. congruence.
    - apply (f_equal (λ d : gmap string string, d !! "content")) in Heq.
      rewrite !lookup_insert_eq in Heq. congruence. }
  unfold system_prompt, assistant_prompt, user_prompt.
  split_and!; intros Heq; by apply Hinj in Heq as [? ?].
Qed.

(** Only the content of the first choice matters to [pretty_print]: two
    responses that agree on it (or both have no choice) are shown alike,
    whatever their other choices and fields. *)
Theorem pretty_print_first_choice_only host (r1 r2 : openai.ChatCompletion) k :
  first_content r1 = first_content r2 →
  pretty_print host r1 k = pretty_print host r2 k.
Proof.
  unfold first_content. rewrite !pretty_print_run.
  destruct (openai.choices r1) as [|c1 ?], (openai.choices r2) as [|c2 ?];
    simpl; try done.
  by intros [= ->].
Qed.

(** The response of the notebook and one with a second choice. *)
Lemma pretty_print_first_choice_only_witness :
  pretty_print sample_host sample_response fresh_kernel
  = pretty_print sample_host two_choices_response fresh_kernel.
Proof.
  apply (pretty_print_first_choice_only sample_host sample_response two_choices_response).
  reflexivity.
Defined.

(** What [pretty_print] shows is not always the content: a content that
    starts with "http" is fetched as a URL, and the call shows what the
    fetch gives or raises what it raises, showing nothing; a content that
    names an existing path is read as a file in the same way. *)
Theorem pretty_print_content_as_location host
    (message : openai.ChatCompletion) (c : openai.Choice) (s : string) k :
  openai.choices message !! 0 = Some c →
  openai.content (openai.message c) = Some s →
  String.prefix "http" s = true ∨ path_exists host s = true →
  let loaded := if String.prefix "http" s then urlopen host s else read_text host s in
  pretty_print host message k =
    match loaded with
    | Ok shown =>
        (Ok VNone, {| wire := wire k; outputs := outputs k ++ [Markdown (Some shown)] |})
    | Raise e => (Raise e, k)
    end.
Proof.
  intros Hc Hs Hloc. rewrite pretty_print_run.
  destruct (openai.choices message) as [|c' cs]; [done|].
  injection Hc as ->. unfold new_Markdown. rewrite Hs. simpl.
  destruct (String.prefix "http" s) eqn:Hurl.
  - by destruct (urlopen host s).
  - destruct Hloc as [Hu | ->]; [done|]. by destruct (read_text host s).
Qed.

(** Offline, with README.md in the working directory: an answer that is
    the name of that file shows the file. *)
Lemma pretty_print_content_as_location_witness :
  pretty_print sample_host (response_with (Some "README.md")) fresh_kernel
  = (Ok VNone, {| wire := []; outputs := [Markdown (Some "# Day 1")] |}).
Proof.
  apply (pretty_print_content_as_location sample_host
           (response_with (Some "README.md"))
           {| openai.finish_reason := "stop"; openai.index := 0;
              openai.message :=
                {| openai.content := Some "README.md"; openai.role := "assistant" |} |}
           "README.md" fresh_kernel).
  - reflexivity.
  - reflexivity.
  - right. vm_compute. reflexivity.
Defined.

End Notebook_runs.

(** ** The sampling callback *)

Section Sampling_facts.
Import Py HelloLLM Notebook Sampling.

Implicit Types (create : string → list dict → M openai.ChatCompletion)
  (k : Kernel) (params : CreateMessageRequestParams).

(** The callback, by the text of the first message. *)
Lemma sampling_callback_run {C} create (context : C) params k :
  sampling_callback create context params k =
    match first_text params with
    | Raise e => (Raise e, k)
    | Ok user_message =>
        match create "gpt-4"
                [ <["content" := user_message]> (<["role" := "user"]> ∅) ] k with
        | (Raise e, k') => (Raise e, k')
        | (Ok response, k') =>
            match openai.choices response with
            | [] => (Raise (IndexError "list index out of range"), k')
            | choice :: _ =>
                match new_TextContent (openai.content (openai.message choice)) with
                | Raise e => (Raise e, k')
                | Ok content =>
                    (Ok {| result_role := "assistant";
                           result_content := content;
                           result_model := "gpt-4" |},
                     k')
                end
            end
        end
    end.
Proof.
  unfold sampling_callback, first_text, lift, getitem, mbind, M_bind, mret, M_ret.
  destruct (messages params) as [|first rest]; [done|]. simpl.
  destruct (content_text (content first)) as [user_message|e]; [|done].
  match goal with |- context [create ?m ?ms k] => destruct (create m ms k) as [[response|e] k'] end;
    [|done].
  destruct (openai.choices response) as [|choice ?]; [done|]. simpl.
  by destruct (new_TextContent (openai.content (openai.message choice))).
Qed.

(** Only the text of the first message of a sampling request reaches the
    model: two requests that start with the same text (or are both empty)
    are handled alike, whatever the role of that message, the messages
    after it and the context. *)
Theorem sampling_callback_first_message_only {C1 C2} create
    (context1 : C1) (context2 : C2) (params1 params2 : CreateMessageRequestParams) k :
  first_text params1 = first_text params2 →
  sampling_callback create context1 params1 k
  = sampling_callback create context2 params2 k.
Proof. intros Heq. by rewrite !sampling_callback_run, Heq. Qed.

(** A request of one message and a longer one that starts with the same
    text, under another role. *)
Lemma sampling_callback_first_message_only_witness :
  sampling_callback (chat_completions_create sample_client) () short_params fresh_kernel
  = sampling_callback (chat_completions_create sample_client) 0 long_params fresh_kernel.
Proof.
  apply (sampling_callback_first_message_only (chat_completions_create sample_client)
           () 0 short_params long_params fresh_kernel).
  reflexivity.
Defined.

(** A sampling request with no message, or whose first message is not
    text, makes the callback raise (IndexError, AttributeError) before it
    calls the model: the call is not made, whatever the library. With a
    text first message the callback makes the one call, for "gpt-4" and
    for that text alone as a user message, and raises what the call raises;
    when the call returns an answer whose first choice has a str content,
    the callback returns an assistant result with that content as text and
    with the name of the model that was called. *)
Theorem sampling_callback_outcomes {C} create (context : C) params k :
  let out := sampling_callback create context params k in
  match first_text params with
  | Raise e => out = (Raise e, k)
  | Ok user_message =>
      let called :=
        create "gpt-4"
          [ <["content" := user_message]> (<["role" := "user"]> ∅) ] k in
      snd out = snd called ∧
      (∀ e, fst called = Raise e → fst out = Raise e) ∧
      (∀ response choice answer,
         fst called = Ok response →
         openai.choices response !! 0 = Some choice →
         openai.content (openai.message choice) = Some answer →
         fst out = Ok {| result_role := "assistant";
                         result_content := {| type := "text"; text := answer |};
                         result_model := "gpt-4" |})
  end.
Proof.
  intros out. subst out. rewrite sampling_callback_run.
  destruct (first_text params) as [user_message|e]; [|done]. simpl.
  match goal with |- context [create ?m ?ms k] => destruct (create m ms k) as [[response|e] k'] end;
    simpl.
  - destruct (openai.choices response) as [|choice ?] eqn:Hcs; simpl.
    + split; [done|]. split; [done|]. intros r c a [= <-]. by rewrite Hcs.
    + destruct (new_TextContent (openai.content (openai.message choice)))
        as [content|e] eqn:Hnew; simpl.
      * split; [done|]. split; [done|].
        intros r c a [= <-]. rewrite Hcs. intros [= <-] Ha.
        rewrite Ha in Hnew. simpl in Hnew. by injection Hnew as <-.
      * split; [done|]. split; [done|].
        intros r c a [= <-]. rewrite Hcs. intros [= <-] Ha.
        by rewrite Ha in Hnew.
  - split; [done|]. split; [|done]. by intros e0 [= <-].
Qed.

End Sampling_facts.
